(** * The inference-session façade of [lotus/python/session.py]

    The Python class [InferenceSession] wraps a native engine (the compiled
    module imported as [C]).  The façade is embedded as a program in a small
    monad that threads the engine's state and the attributes of the façade
    object, raises Python exceptions, and records every interaction with
    the engine together with the engine's answer. *)

From stdpp Require Import base strings list gmap.
From Stdlib Require Import DecimalString.

Set Warnings "-register-all".

(** ** Python values *)

(** The fragment of the Python universe the façade can tell apart: the
    built-in types it tests with [isinstance], the containers it measures
    with [len], and opaque instances of other classes (options objects,
    tensors, the engine's initializer).  Dictionaries are keyed by strings,
    as feeds are.  [PyObj] stands for an instance of a class that derives
    from none of the built-in types listed here and defines neither
    [__bool__] nor [__len__]. *)
Inductive PyVal : Type :=
| PyNone
| PyBool (b : bool)
| PyInt (z : Z)
| PyStr (s : string)
| PyBytes (b : list Byte.byte)
| PyTuple (items : list PyVal)
| PyList (items : list PyVal)
| PyDict (entries : gmap string PyVal)
| PyObj (cls : string) (ident : N).

(** Truth value testing, as used by [if sess_options:] and
    [if not output_names:]. *)
Definition truthy (v : PyVal) : bool :=
  match v with
  | PyNone => false
  | PyBool b => b
  | PyInt z => negb (z =? 0)%Z
  | PyStr s => negb (String.length s =? 0)
  | PyBytes b => negb (length b =? 0)
  | PyTuple items => negb (length items =? 0)
  | PyList items => negb (length items =? 0)
  | PyDict entries => negb (size entries =? 0)
  | PyObj _ _ => true
  end.

(** [type(v).__name__], qualified by the module for classes that are not
    built in. *)
Definition type_name (v : PyVal) : string :=
  match v with
  | PyNone => "NoneType"
  | PyBool _ => "bool"
  | PyInt _ => "int"
  | PyStr _ => "str"
  | PyBytes _ => "bytes"
  | PyTuple _ => "tuple"
  | PyList _ => "list"
  | PyDict _ => "dict"
  | PyObj cls _ => cls
  end.

(** [str(type(v))], which is what [format] inserts for [type(v)]. *)
Definition str_of_type (v : PyVal) : string :=
  "<class '" +:+ type_name v +:+ "'>".

(** [str(n)] for a non-negative integer, as inserted by [format]. *)
Definition str_of_nat (n : nat) : string :=
  NilZero.string_of_uint (Nat.to_uint n).

(** ** Exceptions and outcomes *)

Inductive PyExc : Type :=
| TypeError (msg : string)
| ValueError (msg : string)
| IndexError (msg : string)
| AttributeError (msg : string)
| OtherError (cls : string) (msg : string).

Inductive Outcome (A : Type) : Type :=
| Returns (a : A)
| Raises (e : PyExc).
Arguments Returns {A} a.
Arguments Raises {A} e.

(** ** Metadata reported by the engine *)

(** Modelled from the spec: the descriptor class of the native module is
    not part of the sources; a descriptor has a name, a shape (a sequence
    of optional dimension sizes) and an element type tag. *)
Record NodeArg : Type := mkNodeArg {
  name : string;
  shape : list (option Z);
  type : string
}.

(** Modelled from the spec: the model metadata class of the native module
    is not part of the sources; it has the scalar fields below and a map
    of custom string pairs. *)
Record ModelMetadata : Type := mkModelMetadata {
  producer_name : string;
  graph_name : string;
  domain : string;
  description : string;
  version : Z;
  custom_metadata_map : gmap string string
}.

(** ** The native module [C] *)

Module C.

(** The operations of the native module the façade uses, indexed by the
    type of their result.  [Sess] is the type of native session
    objects.  Arguments the façade passes through are Python values. *)
Inductive Call (Sess : Type) : Type -> Type :=
| get_session_initializer : Call Sess PyVal
| InferenceSession (arg1 arg2 : PyVal) : Call Sess Sess
| load_model (sess : Sess) (path : PyVal) : Call Sess unit
| read_bytes (sess : Sess) (data : PyVal) : Call Sess unit
| load_model_no_init (sess : Sess) (token : PyVal) : Call Sess unit
| inputs_meta (sess : Sess) : Call Sess (list NodeArg)
| outputs_meta (sess : Sess) : Call Sess (list NodeArg)
| model_meta (sess : Sess) : Call Sess ModelMetadata
| run (sess : Sess) (output_names input_feed run_options : PyVal)
    : Call Sess PyVal
| end_profiling (sess : Sess) : Call Sess PyVal.

Arguments get_session_initializer {Sess}.
Arguments InferenceSession {Sess} arg1 arg2.
Arguments load_model {Sess} sess path.
Arguments read_bytes {Sess} sess data.
Arguments load_model_no_init {Sess} sess token.
Arguments inputs_meta {Sess} sess.
Arguments outputs_meta {Sess} sess.
Arguments model_meta {Sess} sess.
Arguments run {Sess} sess output_names input_feed run_options.
Arguments end_profiling {Sess} sess.

(** An engine: any state, any behaviour.  Every operation may return or
    raise, and may change the engine's state either way. *)
Class Engine : Type := {
  Sess : Type;
  State : Type;
  exec : forall {A : Type}, Call Sess A -> State -> Outcome A * State
}.

End C.

(** One interaction with the engine: the call and the engine's answer. *)
Inductive Entry `{C.Engine} : Type :=
| Etr {A : Type} (c : C.Call C.Sess A) (r : Outcome A).
Arguments Etr {_ A} c r.

(** ** The façade object and the monad *)

(** The attributes of one [InferenceSession] object; [None] is an
    attribute that has not been assigned. *)
Record Attrs `{C.Engine} : Type := mkAttrs {
  _sess : option C.Sess;
  _inputs_meta : option (list NodeArg);
  _outputs_meta : option (list NodeArg);
  _model_meta : option ModelMetadata
}.
Arguments mkAttrs {_} _ _ _ _.

Record World `{C.Engine} : Type := mkWorld {
  native : C.State;
  self : Attrs
}.
Arguments mkWorld {_} _ _.

(** A computation maps a world to an outcome, the world it leaves, and the
    interactions with the engine it made, in order. *)
Definition M `{C.Engine} (A : Type) : Type :=
  World -> Outcome A * World * list Entry.

Section Monad.
Context `{C.Engine}.

Definition ret {A : Type} (a : A) : M A :=
  fun w => (Returns a, w, []).

Definition raise {A : Type} (e : PyExc) : M A :=
  fun w => (Raises e, w, []).

Definition bind {A B : Type} (m : M A) (k : A -> M B) : M B :=
  fun w =>
    match m w with
    | (Returns a, w1, t1) =>
        match k a w1 with
        | (r, w2, t2) => (r, w2, t1 ++ t2)
        end
    | (Raises e, w1, t1) => (Raises e, w1, t1)
    end.

(** A call into the native module: the engine answers and moves to its
    next state; the façade object is out of its reach. *)
Definition call {A : Type} (c : C.Call C.Sess A) : M A :=
  fun w =>
    match C.exec c (native w) with
    | (r, s) => (r, mkWorld s (self w), [Etr c r])
    end.

(** [self.<attr>] *)
Definition getattr {A : Type} (proj : Attrs -> option A) (attr : string)
  : M A :=
  fun w =>
    match proj (self w) with
    | Some a => (Returns a, w, [])
    | None =>
        (Raises (AttributeError
                   ("'InferenceSession' object has no attribute '"
                      +:+ attr +:+ "'")), w, [])
    end.

(** [self.<attr> = ...] *)
Definition setattr (upd : Attrs -> Attrs) : M unit :=
  fun w => (Returns tt, mkWorld (native w) (upd (self w)), []).

End Monad.

Declare Scope py_scope.
Delimit Scope py_scope with py.
Notation "x ← m ; k" := (bind m (fun x => k))
  (at level 20, m at level 100, k at level 200, only parsing) : py_scope.
Notation "m ;; k" := (bind m (fun _ => k))
  (at level 100, k at level 200, right associativity, only parsing)
  : py_scope.
Open Scope py_scope.

(** ** [class InferenceSession]

    The object the methods receive as [self] is the one whose attributes
    the world holds, so the methods below take the remaining parameters
    only. *)

Section InferenceSession.
Context `{C.Engine}.

(** [len(v)] *)
Definition len (v : PyVal) : M nat :=
  match v with
  | PyStr s => ret (String.length s)
  | PyBytes b => ret (length b)
  | PyTuple items => ret (length items)
  | PyList items => ret (length items)
  | PyDict entries => ret (size entries)
  | _ =>
      raise (TypeError
               ("object of type '" +:+ type_name v +:+ "' has no len()"))
  end.

(** [items[i]] on a tuple, for a non-negative index *)
Definition tuple_getitem (items : list PyVal) (i : nat) : M PyVal :=
  match items !! i with
  | Some v => ret v
  | None => raise (IndexError "tuple index out of range")
  end.

(** Lines 24-29 of [__init__], the right-hand sides: the native session
    is created from the caller's options when they are truthy, and from
    the engine's own initializer otherwise.  Arguments are evaluated
    from left to right before the constructor is entered. *)
Definition native_session (sess_options : PyVal) : M C.Sess :=
  if truthy sess_options then
    init ← call C.get_session_initializer ;
    call (C.InferenceSession sess_options init)
  else
    init1 ← call C.get_session_initializer ;
    init2 ← call C.get_session_initializer ;
    call (C.InferenceSession init1 init2).

(** Lines 19-42.  A call that omits [sess_options] passes [PyNone]. *)
Definition __init__ (path_or_bytes sess_options : PyVal) : M unit :=
  sess ← native_session sess_options ;
  setattr (fun a =>
    mkAttrs (Some sess) (_inputs_meta a) (_outputs_meta a) (_model_meta a)) ;;
  match path_or_bytes with
  | PyStr _ =>
      sess ← getattr _sess "_sess" ;
      call (C.load_model sess path_or_bytes)
  | PyBytes _ =>
      sess ← getattr _sess "_sess" ;
      call (C.read_bytes sess path_or_bytes)
  | PyTuple items =>
      sess ← getattr _sess "_sess" ;
      token ← tuple_getitem items 0 ;
      call (C.load_model_no_init sess token)
  | _ =>
      raise (TypeError
               ("Unable to load from type '"
                  +:+ str_of_type path_or_bytes +:+ "'"))
  end ;;
  sess ← getattr _sess "_sess" ;
  inputs ← call (C.inputs_meta sess) ;
  setattr (fun a =>
    mkAttrs (_sess a) (Some inputs) (_outputs_meta a) (_model_meta a)) ;;
  sess ← getattr _sess "_sess" ;
  outputs ← call (C.outputs_meta sess) ;
  setattr (fun a =>
    mkAttrs (_sess a) (_inputs_meta a) (Some outputs) (_model_meta a)) ;;
  sess ← getattr _sess "_sess" ;
  meta ← call (C.model_meta sess) ;
  setattr (fun a =>
    mkAttrs (_sess a) (_inputs_meta a) (_outputs_meta a) (Some meta)).

(** Lines 44-54. *)
Definition get_inputs : M (list NodeArg) :=
  getattr _inputs_meta "_inputs_meta".

Definition get_outputs : M (list NodeArg) :=
  getattr _outputs_meta "_outputs_meta".

Definition get_modelmeta : M ModelMetadata :=
  getattr _model_meta "_model_meta".

(** Lines 56-75.  A call that omits [run_options] passes [PyNone]. *)
Definition run (output_names input_feed run_options : PyVal) : M PyVal :=
  inputs ← getattr _inputs_meta "_inputs_meta" ;
  let num_required_inputs := length inputs in
  num_inputs ← len input_feed ;
  if negb (num_inputs =? num_required_inputs) then
    raise (ValueError
             ("Model requires " +:+ str_of_nat num_required_inputs
                +:+ " inputs. Input Feed contains "
                +:+ str_of_nat num_inputs))
  else
    output_names ←
      (if negb (truthy output_names) then
         outputs ← getattr _outputs_meta "_outputs_meta" ;
         ret (PyList (map (fun output => PyStr (name output)) outputs))
       else ret output_names) ;
    sess ← getattr _sess "_sess" ;
    call (C.run sess output_names input_feed run_options).

(** Lines 77-79. *)
Definition end_profiling : M PyVal :=
  sess ← getattr _sess "_sess" ;
  call (C.end_profiling sess).

End InferenceSession.

(** ** Reading a result *)

Definition outcome `{C.Engine} {A : Type}
    (x : Outcome A * World * list Entry) : Outcome A := x.1.1.

Definition world_after `{C.Engine} {A : Type}
    (x : Outcome A * World * list Entry) : World := x.1.2.

Definition trace `{C.Engine} {A : Type}
    (x : Outcome A * World * list Entry) : list Entry := x.2.

(** The three load operations of the engine. *)
Definition is_load `{C.Engine} (e : Entry) : bool :=
  match e with
  | Etr c _ =>
      match c with
      | C.load_model _ _ => true
      | C.read_bytes _ _ => true
      | C.load_model_no_init _ _ => true
      | _ => false
      end
  end.

(** The creation of a native session object. *)
Definition is_constructor `{C.Engine} (e : Entry) : bool :=
  match e with
  | Etr c _ =>
      match c with
      | C.InferenceSession _ _ => true
      | _ => false
      end
  end.

Definition loads `{C.Engine} (t : list Entry) : list Entry :=
  List.filter is_load t.

Definition constructions `{C.Engine} (t : list Entry) : list Entry :=
  List.filter is_constructor t.

(** The answer of the engine to a call in a given state. *)
Definition answer `{C.Engine} {A : Type} (c : C.Call C.Sess A)
    (s : C.State) : Outcome A := (C.exec c s).1.

(** ** A client of one session object *)

Inductive Method : Type :=
| GetInputs
| GetOutputs
| GetModelMeta
| Run (output_names input_feed run_options : PyVal)
| EndProfiling.

(** The world a method call leaves, whether it returns or raises. *)
Definition after `{C.Engine} (m : Method) (w : World) : World :=
  match m with
  | GetInputs => world_after (get_inputs w)
  | GetOutputs => world_after (get_outputs w)
  | GetModelMeta => world_after (get_modelmeta w)
  | Run output_names input_feed run_options =>
      world_after (run output_names input_feed run_options w)
  | EndProfiling => world_after (end_profiling w)
  end.

Definition later `{C.Engine} (w w' : World) : Prop :=
  exists m : Method, w' = after m w.

(** What the engine raised in an interaction, if it raised. *)
Definition raised `{C.Engine} (x : Entry) : option PyExc :=
  match x with
  | Etr _ (Raises e) => Some e
  | Etr _ (Returns _) => None
  end.

(** An engine failure ends the operation: it is the last interaction
    with the engine, and the operation raises what the engine raised. *)
Definition failure_is_final `{C.Engine} {A : Type}
    (x : Outcome A * World * list Entry) : Prop :=
  forall pre (B : Type) (c : C.Call C.Sess B) (e : PyExc) post,
    trace x = pre ++ Etr c (Raises e) :: post ->
    post = [] /\ outcome x = Raises e.

(** The names [run] passes to the engine (lines 73-74): the caller's when
    they are truthy, the names of the cached output descriptors, in their
    order, otherwise. *)
Definition declared_names (outputs : list NodeArg) : PyVal :=
  PyList (map (fun output => PyStr (name output)) outputs).

Definition requested_names (output_names : PyVal) (outputs : list NodeArg)
  : PyVal :=
  if truthy output_names then output_names else declared_names outputs.

(** ** A small engine to run the façade against

    It serves one model, ["model.onnx"], with one input [x] and two
    outputs [y] and [z]; native session objects are numbered as they are
    created, and the state counts them. *)

Module Toy.

Definition x_arg : NodeArg := mkNodeArg "x" [Some 3%Z; None] "tensor(float)".
Definition y_arg : NodeArg := mkNodeArg "y" [Some 3%Z] "tensor(float)".
Definition z_arg : NodeArg := mkNodeArg "z" [Some 1%Z] "tensor(int64)".

Definition meta : ModelMetadata :=
  mkModelMetadata "toy" "g" "" "" 1 {["author" := "nobody"]}.

Definition initializer : PyVal := PyObj "SessionObjectInitializer" 0.

Definition exec {A : Type} (c : C.Call nat A) (n : nat)
  : Outcome A * nat :=
  match c in C.Call _ T return Outcome T * nat with
  | C.get_session_initializer => (Returns initializer, n)
  | C.InferenceSession arg1 _ =>
      match arg1 with
      | PyObj _ _ => (Returns n, S n)
      | _ =>
          (Raises (TypeError "__init__(): incompatible constructor arguments"),
           n)
      end
  | C.load_model _ path =>
      match path with
      | PyStr "model.onnx" => (Returns tt, n)
      | _ => (Raises (OtherError "RuntimeError" "Load model failed"), n)
      end
  | C.read_bytes _ _ => (Returns tt, n)
  | C.load_model_no_init _ _ => (Returns tt, n)
  | C.inputs_meta _ => (Returns [x_arg], n)
  | C.outputs_meta _ => (Returns [y_arg; z_arg], n)
  | C.model_meta _ => (Returns meta, n)
  | C.run _ output_names input_feed _ =>
      match input_feed with
      | PyDict feed =>
          match feed !! "x" with
          | Some v =>
              match output_names with
              | PyList names => (Returns (PyList (map (fun _ => v) names)), n)
              | _ => (Raises (TypeError "run(): incompatible function arguments"), n)
              end
          | None =>
              (Raises (OtherError "RuntimeError" "Invalid Feed Input Name"), n)
          end
      | _ => (Raises (TypeError "run(): incompatible function arguments"), n)
      end
  | C.end_profiling _ =>
      (Raises (OtherError "RuntimeError" "Profiling is not enabled"), n)
  end.

Definition engine : C.Engine :=
  {| C.Sess := nat; C.State := nat; C.exec := @exec |}.

(** No object yet: the world in which a session is constructed. *)
Definition fresh : @World engine :=
  @mkWorld engine 0 (@mkAttrs engine None None None None).

(** The world left by [InferenceSession("model.onnx")]. *)
Definition loaded : @World engine :=
  @mkWorld engine 1
    (@mkAttrs engine (Some 0) (Some [x_arg]) (Some [y_arg; z_arg])
       (Some meta)).

(** The world once the native session object exists, and the calls
    that create it when no options are given. *)
Definition created : @World engine :=
  @mkWorld engine 1 (@mkAttrs engine None None None None).

Definition creation : list (@Entry engine) :=
  [@Etr engine _ C.get_session_initializer (Returns initializer);
   @Etr engine _ C.get_session_initializer (Returns initializer);
   @Etr engine _ (C.InferenceSession initializer initializer) (Returns 0)].

Definition options : PyVal := PyObj "SessionOptions" 7.
Definition tensor : PyVal := PyObj "numpy.ndarray" 1.

End Toy.

#[local] Existing Instance Toy.engine.

Example toy_construct :
  @__init__ Toy.engine (PyStr "model.onnx") PyNone Toy.fresh
  = (Returns tt, Toy.loaded,
     [Etr C.get_session_initializer (Returns Toy.initializer);
      Etr C.get_session_initializer (Returns Toy.initializer);
      Etr (C.InferenceSession Toy.initializer Toy.initializer) (Returns 0);
      Etr (C.load_model 0 (PyStr "model.onnx")) (Returns tt);
      Etr (C.inputs_meta 0) (Returns [Toy.x_arg]);
      Etr (C.outputs_meta 0) (Returns [Toy.y_arg; Toy.z_arg]);
      Etr (C.model_meta 0) (Returns Toy.meta)]).
Proof. reflexivity. Qed.

Example toy_run :
  @run Toy.engine PyNone (PyDict {["x" := Toy.tensor]}) PyNone Toy.loaded
  = (Returns (PyList [Toy.tensor; Toy.tensor]), Toy.loaded,
     [Etr (C.run 0 (PyList [PyStr "y"; PyStr "z"])
             (PyDict {["x" := Toy.tensor]}) PyNone)
        (Returns (PyList [Toy.tensor; Toy.tensor]))]).
Proof. vm_compute. reflexivity. Qed.

Example toy_run_count :
  outcome (@run Toy.engine PyNone (PyDict ∅) PyNone Toy.loaded)
  = Raises (ValueError "Model requires 1 inputs. Input Feed contains 0").
Proof. reflexivity. Qed.

(** Options the engine does not accept: the constructor of the native
    session raises before the source is looked at. *)
Example toy_construct_rejected_options :
  __init__ (PyInt 3) (PyStr "fast") Toy.fresh
  = (Raises (TypeError "__init__(): incompatible constructor arguments"),
     Toy.fresh,
     [Etr C.get_session_initializer (Returns Toy.initializer);
      Etr (C.InferenceSession (PyStr "fast") Toy.initializer)
        (Raises (TypeError "__init__(): incompatible constructor arguments"))]).
Proof. reflexivity. Qed.

Example toy_construct_int :
  outcome (@__init__ Toy.engine (PyInt 3) PyNone Toy.fresh)
  = Raises (TypeError "Unable to load from type '<class 'int'>'").
Proof. reflexivity. Qed.

(** ** Laws of the monad *)

Section Laws.
Context `{C.Engine}.

Lemma bind_returns {A B : Type} (m : M A) (k : A -> M B) w a w1 t1 :
  m w = (Returns a, w1, t1) ->
  bind m k w = (outcome (k a w1), world_after (k a w1), t1 ++ trace (k a w1)).
Proof.
  intros Hm. unfold bind, outcome, world_after, trace. rewrite Hm.
  destruct (k a w1) as [[r w2] t2]. reflexivity.
Qed.

Lemma bind_returns_trace {A B : Type} (m : M A) (k : A -> M B) w a w1 t1 :
  m w = (Returns a, w1, t1) -> trace (bind m k w) = t1 ++ trace (k a w1).
Proof. intros Hm. rewrite (bind_returns _ _ _ _ _ _ Hm). reflexivity. Qed.

Lemma bind_returns_outcome {A B : Type} (m : M A) (k : A -> M B) w a w1 t1 :
  m w = (Returns a, w1, t1) -> outcome (bind m k w) = outcome (k a w1).
Proof. intros Hm. rewrite (bind_returns _ _ _ _ _ _ Hm). reflexivity. Qed.

Lemma loads_app (t t' : list Entry) : loads (t ++ t') = loads t ++ loads t'.
Proof. apply List.filter_app. Qed.

Lemma constructions_app (t t' : list Entry) :
  constructions (t ++ t') = constructions t ++ constructions t'.
Proof. apply List.filter_app. Qed.

Lemma bind_raises {A B : Type} (m : M A) (k : A -> M B) w e w1 t1 :
  m w = (Raises e, w1, t1) -> bind m k w = (Raises e, w1, t1).
Proof. intros Hm. unfold bind. rewrite Hm. reflexivity. Qed.

Lemma bind_cong {A B : Type} (m : M A) (k k' : A -> M B) w :
  (forall a w1 t1, m w = (Returns a, w1, t1) -> k a w1 = k' a w1) ->
  bind m k w = bind m k' w.
Proof.
  intros Hk. unfold bind. destruct (m w) as [[[a|e] w1] t1]; [|reflexivity].
  rewrite (Hk a w1 t1 eq_refl). reflexivity.
Qed.

Lemma bind_ret {A B : Type} (a : A) (k : A -> M B) w :
  bind (ret a) k w = k a w.
Proof. unfold bind, ret. destruct (k a w) as [[r w2] t2]. reflexivity. Qed.

Lemma bind_getattr {A B : Type} (proj : Attrs -> option A) attr
    (k : A -> M B) w a :
  proj (self w) = Some a -> bind (getattr proj attr) k w = k a w.
Proof.
  intros Hp. unfold bind, getattr. rewrite Hp.
  destruct (k a w) as [[r w2] t2]. reflexivity.
Qed.

Lemma call_unfold {A : Type} (c : C.Call C.Sess A) w :
  call c w
  = (answer c (native w),
     mkWorld (C.exec c (native w)).2 (self w),
     [Etr c (answer c (native w))]).
Proof.
  unfold call, answer. destruct (C.exec c (native w)). reflexivity.
Qed.

End Laws.

(** ** [run]: the count check and the delegation *)

Section Run.
Context `{C.Engine}.

Lemma len_inv v w r w1 t1 :
  len v w = (r, w1, t1) -> w1 = w /\ t1 = [].
Proof. destruct v; cbn; intros [= _ <- <-]; split; reflexivity. Qed.

Lemma run_len_mismatch w inputs output_names input_feed run_options k :
  _inputs_meta (self w) = Some inputs ->
  len input_feed w = (Returns k, w, []) ->
  k ≠ length inputs ->
  run output_names input_feed run_options w
  = (Raises (ValueError
               ("Model requires " +:+ str_of_nat (length inputs)
                  +:+ " inputs. Input Feed contains " +:+ str_of_nat k)),
     w, []).
Proof.
  intros Hin Hlen Hne. unfold run.
  erewrite bind_returns by (unfold getattr; rewrite Hin; reflexivity).
  erewrite bind_returns by exact Hlen.
  apply Nat.eqb_neq in Hne. rewrite Hne. reflexivity.
Qed.

Lemma run_len_match w sess inputs outputs meta output_names input_feed
    run_options :
  self w = mkAttrs (Some sess) (Some inputs) (Some outputs) meta ->
  len input_feed w = (Returns (length inputs), w, []) ->
  run output_names input_feed run_options w
  = call (C.run sess (requested_names output_names outputs) input_feed
            run_options) w.
Proof.
  intros Hself Hlen. unfold run, requested_names, declared_names.
  rewrite (bind_getattr _ _ _ w inputs) by (rewrite Hself; reflexivity).
  unfold bind at 1. rewrite Hlen, Nat.eqb_refl. cbn [negb].
  assert (forall (m : M PyVal), (let '(r, w2, t2) := m w in (r, w2, [] ++ t2)) = m w) as ->
    by (intros m; destruct (m w) as [[r w2] t2]; reflexivity).
  destruct (truthy output_names); cbn [negb].
  - rewrite bind_ret.
    rewrite (bind_getattr _ _ _ w sess) by (rewrite Hself; reflexivity).
    reflexivity.
  - rewrite (bind_returns _ _ w
               (PyList (map (fun output => PyStr (name output)) outputs)) w [])
      by (rewrite (bind_getattr _ _ _ w outputs)
            by (rewrite Hself; reflexivity); reflexivity).
    rewrite (bind_getattr _ _ _ w sess) by (rewrite Hself; reflexivity).
    unfold outcome, world_after, trace.
    destruct (call _ w) as [[r w2] t2]. reflexivity.
Qed.

(** C1.  In a session whose cached input descriptors number [N], [run]
    with a feed of a different number of entries raises [ValueError]
    with the message naming [N] and the size of the feed; the world is
    left as it was and the engine is not called at all. *)
Theorem run_input_count_mismatch (w : World) (inputs : list NodeArg)
    (N : nat) (feed : gmap string PyVal) (output_names run_options : PyVal) :
  _inputs_meta (self w) = Some inputs ->
  length inputs = N ->
  size feed ≠ N ->
  run output_names (PyDict feed) run_options w
  = (Raises (ValueError
               ("Model requires " +:+ str_of_nat N
                  +:+ " inputs. Input Feed contains "
                  +:+ str_of_nat (size feed))),
     w, []).
Proof.
  intros Hin <- Hne. now apply run_len_mismatch.
Qed.

Lemma run_falsy_names w inputs outputs output_names input_feed
    run_options :
  _inputs_meta (self w) = Some inputs ->
  _outputs_meta (self w) = Some outputs ->
  truthy output_names = false ->
  run output_names input_feed run_options w
  = run (declared_names outputs) input_feed run_options w.
Proof.
  intros Hin Hout Hfalse. unfold run.
  rewrite !(bind_getattr _ _ _ w inputs) by exact Hin.
  apply bind_cong. intros k w1 t1 [-> ->]%len_inv.
  destruct (negb (k =? length inputs)); [reflexivity|].
  rewrite Hfalse. cbn [negb].
  rewrite (bind_returns _ _ w (declared_names outputs) w [])
    by (rewrite (bind_getattr _ _ _ w outputs) by exact Hout; reflexivity).
  destruct (truthy (declared_names outputs)) eqn:Hdecl; cbn [negb].
  - rewrite bind_ret. unfold outcome, world_after, trace. cbn [app].
    now destruct (bind _ _ w) as [[r w2] t2].
  - rewrite (bind_returns _ _ w (declared_names outputs) w [])
      by (rewrite (bind_getattr _ _ _ w outputs) by exact Hout; reflexivity).
    reflexivity.
Qed.

(** C2.  In a constructed session, [run] with the output names omitted
    ([None]) or empty returns what [run] returns with the names of the
    cached output descriptors, in their declared order; outcome, final
    world and engine interactions all agree, for every feed. *)
Theorem run_default_output_names (w : World) (sess : C.Sess)
    (inputs outputs : list NodeArg) (meta : ModelMetadata)
    (input_feed run_options : PyVal) :
  self w = mkAttrs (Some sess) (Some inputs) (Some outputs) (Some meta) ->
  run PyNone input_feed run_options w
  = run (PyList (map (fun output => PyStr (name output)) outputs))
      input_feed run_options w
  /\ run (PyList []) input_feed run_options w
     = run (PyList (map (fun output => PyStr (name output)) outputs))
         input_feed run_options w.
Proof.
  intros Hself.
  split; apply (run_falsy_names w inputs); rewrite ?Hself; reflexivity.
Qed.

(** C3.  In a session with [N] declared inputs, [run] with a feed of
    exactly [N] entries is the call of the engine's [run] and nothing
    else, whatever the keys of the feed are: the façade compares the
    counts and never looks at the names. *)
Theorem run_delegates_without_name_check (w : World) (sess : C.Sess)
    (inputs outputs : list NodeArg) (meta : ModelMetadata)
    (feed : gmap string PyVal) (output_names run_options : PyVal) :
  self w = mkAttrs (Some sess) (Some inputs) (Some outputs) (Some meta) ->
  size feed = length inputs ->
  run output_names (PyDict feed) run_options w
  = call (C.run sess (requested_names output_names outputs) (PyDict feed)
            run_options) w.
Proof.
  intros Hself Hsize. apply (run_len_match w sess inputs outputs (Some meta));
    [exact Hself|]. cbn. rewrite Hsize. reflexivity.
Qed.

(** C7.  With a feed of the declared size, when the engine's [run]
    returns a result for the requested names, the feed and the run
    options, [run] returns that very result; the engine has been
    called once, with those arguments. *)
Theorem run_returns_engine_result (w : World) (sess : C.Sess)
    (inputs outputs : list NodeArg) (meta : ModelMetadata)
    (feed : gmap string PyVal) (output_names run_options : PyVal)
    (result : PyVal) (s' : C.State) :
  self w = mkAttrs (Some sess) (Some inputs) (Some outputs) (Some meta) ->
  size feed = length inputs ->
  C.exec (C.run sess (requested_names output_names outputs) (PyDict feed)
            run_options) (native w) = (Returns result, s') ->
  run output_names (PyDict feed) run_options w
  = (Returns result, mkWorld s' (self w),
     [Etr (C.run sess (requested_names output_names outputs) (PyDict feed)
             run_options) (Returns result)]).
Proof.
  intros Hself Hsize Hexec.
  rewrite (run_len_match w sess inputs outputs (Some meta))
    by (try exact Hself; cbn; rewrite Hsize; reflexivity).
  unfold call. rewrite Hexec. reflexivity.
Qed.

End Run.

Lemma run_input_count_mismatch_witness :
  _inputs_meta (self Toy.loaded) = Some [Toy.x_arg]
  /\ length [Toy.x_arg] = 1
  /\ size ({["x" := Toy.tensor; "w" := Toy.tensor]} : gmap string PyVal) ≠ 1
  /\ run PyNone (PyDict {["x" := Toy.tensor; "w" := Toy.tensor]}) PyNone
       Toy.loaded
     = (Raises (ValueError "Model requires 1 inputs. Input Feed contains 2"),
        Toy.loaded, []).
Proof.
  assert (size ({["x" := Toy.tensor; "w" := Toy.tensor]} : gmap string PyVal)
          ≠ 1) as Hne by (vm_compute; discriminate).
  split; [reflexivity|]. split; [reflexivity|]. split; [exact Hne|].
  exact (run_input_count_mismatch Toy.loaded [Toy.x_arg] 1
           {["x" := Toy.tensor; "w" := Toy.tensor]} PyNone PyNone
           eq_refl eq_refl Hne).
Defined.

Lemma run_default_output_names_witness :
  self Toy.loaded
  = mkAttrs (Some 0) (Some [Toy.x_arg]) (Some [Toy.y_arg; Toy.z_arg])
      (Some Toy.meta)
  /\ run PyNone (PyDict {["x" := Toy.tensor]}) PyNone Toy.loaded
     = run (PyList [PyStr "y"; PyStr "z"]) (PyDict {["x" := Toy.tensor]})
         PyNone Toy.loaded
  /\ run (PyList []) (PyDict {["x" := Toy.tensor]}) PyNone Toy.loaded
     = run (PyList [PyStr "y"; PyStr "z"]) (PyDict {["x" := Toy.tensor]})
         PyNone Toy.loaded.
Proof.
  split; [reflexivity|].
  exact (run_default_output_names Toy.loaded 0 [Toy.x_arg]
           [Toy.y_arg; Toy.z_arg] Toy.meta (PyDict {["x" := Toy.tensor]})
           PyNone eq_refl).
Defined.

Lemma run_delegates_without_name_check_witness :
  self Toy.loaded
  = mkAttrs (Some 0) (Some [Toy.x_arg]) (Some [Toy.y_arg; Toy.z_arg])
      (Some Toy.meta)
  /\ size ({["not_an_input" := Toy.tensor]} : gmap string PyVal)
     = length [Toy.x_arg]
  /\ run PyNone (PyDict {["not_an_input" := Toy.tensor]}) PyNone Toy.loaded
     = call (C.run 0 (PyList [PyStr "y"; PyStr "z"])
               (PyDict {["not_an_input" := Toy.tensor]}) PyNone) Toy.loaded.
Proof.
  split; [reflexivity|]. split; [reflexivity|].
  exact (run_delegates_without_name_check Toy.loaded 0 [Toy.x_arg]
           [Toy.y_arg; Toy.z_arg] Toy.meta {["not_an_input" := Toy.tensor]}
           PyNone PyNone eq_refl eq_refl).
Defined.

Lemma run_returns_engine_result_witness :
  self Toy.loaded
  = mkAttrs (Some 0) (Some [Toy.x_arg]) (Some [Toy.y_arg; Toy.z_arg])
      (Some Toy.meta)
  /\ size ({["x" := Toy.tensor]} : gmap string PyVal) = length [Toy.x_arg]
  /\ C.exec (C.run 0 (PyList [PyStr "z"]) (PyDict {["x" := Toy.tensor]})
               PyNone) (native Toy.loaded)
     = (Returns (PyList [Toy.tensor]), 1)
  /\ run (PyList [PyStr "z"]) (PyDict {["x" := Toy.tensor]}) PyNone Toy.loaded
     = (Returns (PyList [Toy.tensor]), Toy.loaded,
        [Etr (C.run 0 (PyList [PyStr "z"]) (PyDict {["x" := Toy.tensor]})
                PyNone) (Returns (PyList [Toy.tensor]))]).
Proof.
  assert (C.exec (C.run 0 (PyList [PyStr "z"]) (PyDict {["x" := Toy.tensor]})
                    PyNone) (native Toy.loaded)
          = (Returns (PyList [Toy.tensor]), 1)) as Hexec
    by (vm_compute; reflexivity).
  split; [reflexivity|]. split; [reflexivity|]. split; [exact Hexec|].
  exact (run_returns_engine_result Toy.loaded 0 [Toy.x_arg]
           [Toy.y_arg; Toy.z_arg] Toy.meta {["x" := Toy.tensor]}
           (PyList [PyStr "z"]) PyNone (PyList [Toy.tensor]) 1
           eq_refl eq_refl Hexec).
Defined.

(** ** [__init__]: creating the native session and loading the model *)

Ltac unfold_monad :=
  unfold bind, call, getattr, setattr, ret, raise, tuple_getitem,
    outcome, world_after, trace; cbn.

Ltac engine_answers :=
  unfold_monad;
  repeat match goal with
    | |- context [C.exec ?c ?s] =>
        let E := fresh "Hexec" in
        destruct (C.exec c s) as [[?|?] ?] eqn:E; cbn
    end.

Section Construct.
Context `{C.Engine}.

Lemma native_session_loads sess_options w :
  loads (trace (native_session sess_options w)) = [].
Proof.
  unfold native_session, loads.
  destruct (truthy sess_options); engine_answers; reflexivity.
Qed.

Lemma native_session_self sess_options w :
  self (world_after (native_session sess_options w)) = self w.
Proof.
  unfold native_session.
  destruct (truthy sess_options); engine_answers; reflexivity.
Qed.

(** C5.  Once the native session object [sess] exists, [__init__] makes
    exactly one load call, chosen by the variant of the source:
    [load_model] with the string for a path, [read_bytes] with the bytes
    for a byte sequence, and [load_model_no_init] with the token for a
    tuple that carries one. *)
Theorem construct_dispatches_on_source (sess_options : PyVal) (w : World)
    (sess : C.Sess) (w1 : World) (t1 : list Entry) :
  native_session sess_options w = (Returns sess, w1, t1) ->
  (forall path : string,
      loads (trace (__init__ (PyStr path) sess_options w))
      = [Etr (C.load_model sess (PyStr path))
           (answer (C.load_model sess (PyStr path)) (native w1))])
  /\ (forall data : list Byte.byte,
         loads (trace (__init__ (PyBytes data) sess_options w))
         = [Etr (C.read_bytes sess (PyBytes data))
              (answer (C.read_bytes sess (PyBytes data)) (native w1))])
  /\ (forall (token : PyVal) (rest : list PyVal),
         loads (trace (__init__ (PyTuple (token :: rest)) sess_options w))
         = [Etr (C.load_model_no_init sess token)
              (answer (C.load_model_no_init sess token) (native w1))]).
Proof.
  intros Hns.
  pose proof (native_session_loads sess_options w) as Hl.
  rewrite Hns in Hl. change (loads t1 = []) in Hl.
  repeat split; intros; unfold __init__;
    rewrite (bind_returns_trace _ _ _ _ _ _ Hns), loads_app, Hl;
    unfold answer, loads; engine_answers; reflexivity.
Qed.

(** The test of line 24 is a truth value test: options that are falsy
    (an empty dictionary, say) are treated as no options. *)
Lemma native_session_falsy_options sess_options :
  truthy sess_options = false ->
  native_session sess_options = native_session PyNone.
Proof. intros Hfalse. unfold native_session. rewrite Hfalse. reflexivity. Qed.

(** C4.  A source that is neither a string, a byte sequence nor a tuple
    makes [__init__] call none of the engine's load operations; and once
    the native session object exists, [__init__] raises [TypeError] with
    the message naming the type of the source, having made no engine
    call beyond those that created the native session. *)
Theorem construct_unsupported_source (path_or_bytes sess_options : PyVal)
    (w : World) :
  (forall path, path_or_bytes ≠ PyStr path) ->
  (forall data, path_or_bytes ≠ PyBytes data) ->
  (forall items, path_or_bytes ≠ PyTuple items) ->
  loads (trace (__init__ path_or_bytes sess_options w)) = []
  /\ forall sess w1 t1,
       native_session sess_options w = (Returns sess, w1, t1) ->
       outcome (__init__ path_or_bytes sess_options w)
       = Raises (TypeError
                   ("Unable to load from type '"
                      +:+ str_of_type path_or_bytes +:+ "'"))
       /\ trace (__init__ path_or_bytes sess_options w) = t1.
Proof.
  intros Hstr Hbytes Htuple.
  pose proof (native_session_loads sess_options w) as Hl.
  split.
  - unfold __init__.
    destruct (native_session sess_options w) as [[[sess|e] w1] t1] eqn:Hns.
    + rewrite (bind_returns_trace _ _ _ _ _ _ Hns), loads_app.
      change (loads t1 = []) in Hl. rewrite Hl.
      destruct path_or_bytes;
        try solve [ exfalso; eapply Hstr; reflexivity
                  | exfalso; eapply Hbytes; reflexivity
                  | exfalso; eapply Htuple; reflexivity ];
        reflexivity.
    + rewrite (bind_raises _ _ _ _ _ _ Hns). exact Hl.
  - intros sess w1 t1 Hns. unfold __init__.
    rewrite (bind_returns_trace _ _ _ _ _ _ Hns),
      (bind_returns_outcome _ _ _ _ _ _ Hns).
    destruct path_or_bytes;
      try solve [ exfalso; eapply Hstr; reflexivity
                | exfalso; eapply Hbytes; reflexivity
                | exfalso; eapply Htuple; reflexivity ];
      (split; [reflexivity | apply app_nil_r]).
Qed.

(** C10.  A tuple is taken as the pre-parsed model: once the native
    session object exists, a non-empty tuple leads to exactly one load
    call, [load_model_no_init] with the first element of the tuple and
    nothing of the rest; the empty tuple raises [IndexError] from the
    subscript, not [TypeError], and no load call is made. *)
Theorem construct_from_tuple (sess_options : PyVal) (w : World)
    (sess : C.Sess) (w1 : World) (t1 : list Entry) :
  native_session sess_options w = (Returns sess, w1, t1) ->
  (forall (token : PyVal) (rest : list PyVal),
      loads (trace (__init__ (PyTuple (token :: rest)) sess_options w))
      = [Etr (C.load_model_no_init sess token)
           (answer (C.load_model_no_init sess token) (native w1))])
  /\ outcome (__init__ (PyTuple []) sess_options w)
     = Raises (IndexError "tuple index out of range")
  /\ trace (__init__ (PyTuple []) sess_options w) = t1.
Proof.
  intros Hns.
  pose proof (native_session_loads sess_options w) as Hl.
  rewrite Hns in Hl. change (loads t1 = []) in Hl.
  split; [|split].
  - intros token rest. unfold __init__.
    rewrite (bind_returns_trace _ _ _ _ _ _ Hns), loads_app, Hl.
    unfold answer, loads; engine_answers; reflexivity.
  - unfold __init__. rewrite (bind_returns_outcome _ _ _ _ _ _ Hns).
    reflexivity.
  - unfold __init__. rewrite (bind_returns_trace _ _ _ _ _ _ Hns).
    apply app_nil_r.
Qed.

(** C9.  [__init__] creates the native session object once.  Given an
    options object, it is created from that object and the engine's
    initializer; given no options ([None]), it is created from the
    engine's initializer alone, which stands in for the options. *)
Theorem construct_session_options (path_or_bytes : PyVal) (w : World) :
  (forall cls ident init s1,
      C.exec C.get_session_initializer (native w) = (Returns init, s1) ->
      constructions (trace (__init__ path_or_bytes (PyObj cls ident) w))
      = [Etr (C.InferenceSession (PyObj cls ident) init)
           (answer (C.InferenceSession (PyObj cls ident) init) s1)])
  /\ (forall init1 s1 init2 s2,
         C.exec C.get_session_initializer (native w) = (Returns init1, s1) ->
         C.exec C.get_session_initializer s1 = (Returns init2, s2) ->
         constructions (trace (__init__ path_or_bytes PyNone w))
         = [Etr (C.InferenceSession init1 init2)
              (answer (C.InferenceSession init1 init2) s2)]).
Proof.
  split.
  - intros cls ident init s1 Hinit.
    unfold __init__, native_session, constructions, answer. cbn [truthy].
    unfold bind at 1 2, call at 1. rewrite Hinit.
    destruct path_or_bytes as [| | | | |[|token rest]| | |];
      engine_answers; reflexivity.
  - intros init1 s1 init2 s2 Hinit1 Hinit2.
    unfold __init__, native_session, constructions, answer. cbn [truthy].
    unfold bind at 1 2, call at 1. rewrite Hinit1.
    unfold bind at 1, call at 1. cbn [native]. rewrite Hinit2.
    destruct path_or_bytes as [| | | | |[|token rest]| | |];
      engine_answers; reflexivity.
Qed.

End Construct.

Lemma construct_dispatches_on_source_witness :
  native_session PyNone Toy.fresh = (Returns 0, Toy.created, Toy.creation)
  /\ loads (trace (__init__ (PyStr "model.onnx") PyNone Toy.fresh))
     = [Etr (C.load_model 0 (PyStr "model.onnx")) (Returns tt)]
  /\ loads (trace (__init__ (PyBytes [Byte.x08; Byte.x03]) PyNone
                     Toy.fresh))
     = [Etr (C.read_bytes 0 (PyBytes [Byte.x08; Byte.x03])) (Returns tt)]
  /\ loads (trace (__init__ (PyTuple [PyObj "ModelProto" 3; PyInt 5]) PyNone
                     Toy.fresh))
     = [Etr (C.load_model_no_init 0 (PyObj "ModelProto" 3)) (Returns tt)].
Proof.
  pose proof (construct_dispatches_on_source PyNone Toy.fresh 0 Toy.created
                Toy.creation eq_refl) as [Hstr [Hbytes Htuple]].
  split; [reflexivity|].
  split; [exact (Hstr "model.onnx")|].
  split; [exact (Hbytes [Byte.x08; Byte.x03])|].
  exact (Htuple (PyObj "ModelProto" 3) [PyInt 5]).
Defined.

Lemma construct_unsupported_source_witness :
  (forall path, PyInt 3 ≠ PyStr path)
  /\ (forall data, PyInt 3 ≠ PyBytes data)
  /\ (forall items, PyInt 3 ≠ PyTuple items)
  /\ native_session PyNone Toy.fresh = (Returns 0, Toy.created, Toy.creation)
  /\ loads (trace (__init__ (PyInt 3) PyNone Toy.fresh)) = []
  /\ outcome (__init__ (PyInt 3) PyNone Toy.fresh)
     = Raises (TypeError "Unable to load from type '<class 'int'>'")
  /\ trace (__init__ (PyInt 3) PyNone Toy.fresh) = Toy.creation.
Proof.
  assert (forall path, PyInt 3 ≠ PyStr path) as Hstr by discriminate.
  assert (forall data, PyInt 3 ≠ PyBytes data) as Hbytes by discriminate.
  assert (forall items, PyInt 3 ≠ PyTuple items) as Htuple by discriminate.
  pose proof (construct_unsupported_source (PyInt 3) PyNone Toy.fresh
                Hstr Hbytes Htuple) as [Hloads Hraise].
  split; [exact Hstr|]. split; [exact Hbytes|]. split; [exact Htuple|].
  split; [reflexivity|]. split; [exact Hloads|].
  exact (Hraise 0 Toy.created Toy.creation eq_refl).
Defined.

Lemma construct_from_tuple_witness :
  native_session PyNone Toy.fresh = (Returns 0, Toy.created, Toy.creation)
  /\ loads (trace (__init__ (PyTuple [PyObj "ModelProto" 3; PyInt 5]) PyNone
                     Toy.fresh))
     = [Etr (C.load_model_no_init 0 (PyObj "ModelProto" 3)) (Returns tt)]
  /\ outcome (__init__ (PyTuple []) PyNone Toy.fresh)
     = Raises (IndexError "tuple index out of range")
  /\ trace (__init__ (PyTuple []) PyNone Toy.fresh) = Toy.creation.
Proof.
  pose proof (construct_from_tuple PyNone Toy.fresh 0 Toy.created
                Toy.creation eq_refl) as [Hfirst Hempty].
  split; [reflexivity|].
  split; [exact (Hfirst (PyObj "ModelProto" 3) [PyInt 5])|].
  exact Hempty.
Defined.

Lemma construct_session_options_witness :
  C.exec C.get_session_initializer (native Toy.fresh)
  = (Returns Toy.initializer, 0)
  /\ constructions (trace (__init__ (PyStr "model.onnx") Toy.options
                             Toy.fresh))
     = [Etr (C.InferenceSession Toy.options Toy.initializer) (Returns 0)]
  /\ constructions (trace (__init__ (PyStr "model.onnx") PyNone Toy.fresh))
     = [Etr (C.InferenceSession Toy.initializer Toy.initializer) (Returns 0)].
Proof.
  pose proof (construct_session_options (PyStr "model.onnx") Toy.fresh)
    as [Hgiven Habsent].
  split; [reflexivity|].
  split; [exact (Hgiven "SessionOptions" 7%N Toy.initializer 0 eq_refl)|].
  exact (Habsent Toy.initializer 0 Toy.initializer 0 eq_refl eq_refl).
Defined.

(** ** The cached metadata *)

Section Snapshots.
Context `{C.Engine}.

Lemma init_returns path_or_bytes sess_options w w' t :
  __init__ path_or_bytes sess_options w = (Returns tt, w', t) ->
  exists sess inputs outputs meta t0,
    t = t0 ++ [Etr (C.inputs_meta sess) (Returns inputs);
               Etr (C.outputs_meta sess) (Returns outputs);
               Etr (C.model_meta sess) (Returns meta)]
    /\ self w' = mkAttrs (Some sess) (Some inputs) (Some outputs) (Some meta).
Proof.
  unfold __init__. intros Hinit.
  destruct (native_session sess_options w) as [[[sess|e] w1] t1] eqn:Hns;
    [ rewrite (bind_returns _ _ _ _ _ _ Hns) in Hinit
    | rewrite (bind_raises _ _ _ _ _ _ Hns) in Hinit; discriminate ].
  exists sess.
  destruct path_or_bytes as [| | | | |[|token rest]| | |];
    unfold bind, call, getattr, setattr, ret, raise, tuple_getitem,
      outcome, world_after, trace in Hinit;
    cbn in Hinit; try discriminate;
    repeat match type of Hinit with
      | context [C.exec ?c ?s] =>
          destruct (C.exec c s) as [[?|?] ?]; cbn in Hinit
      end;
    try discriminate;
    injection Hinit as <- <-;
    eexists _, _, _, (t1 ++ [_]);
    (split; [rewrite <- app_assoc; reflexivity | reflexivity]).
Qed.

Lemma after_self (m : Method) (w : World) : self (after m w) = self w.
Proof.
  destruct m; unfold after, get_inputs, get_outputs, get_modelmeta,
    run, end_profiling, len;
    unfold bind, call, getattr, setattr, ret, raise, world_after; cbn;
    repeat case_match; simplify_eq; reflexivity.
Qed.

Lemma later_self (w w' : World) : rtc later w w' -> self w' = self w.
Proof.
  induction 1 as [w | w w1 w' [m ->] _ IH]; [reflexivity|].
  rewrite IH. apply after_self.
Qed.

(** C6.  After [__init__] has returned, the three cached attributes hold
    what the engine answered to the three metadata reads that end
    [__init__]; after any number of later method calls ([get_inputs],
    [get_outputs], [get_modelmeta], [run], [end_profiling], returning
    or raising) the attributes are the same, and each accessor returns
    the cached value without calling the engine or changing anything. *)
Theorem metadata_snapshots (path_or_bytes sess_options : PyVal)
    (w w' : World) (t : list Entry) (w2 : World) :
  __init__ path_or_bytes sess_options w = (Returns tt, w', t) ->
  rtc later w' w2 ->
  exists sess inputs outputs meta t0,
    t = t0 ++ [Etr (C.inputs_meta sess) (Returns inputs);
               Etr (C.outputs_meta sess) (Returns outputs);
               Etr (C.model_meta sess) (Returns meta)]
    /\ self w' = mkAttrs (Some sess) (Some inputs) (Some outputs) (Some meta)
    /\ self w2 = self w'
    /\ get_inputs w2 = (Returns inputs, w2, [])
    /\ get_outputs w2 = (Returns outputs, w2, [])
    /\ get_modelmeta w2 = (Returns meta, w2, []).
Proof.
  intros Hinit Hlater.
  destruct (init_returns _ _ _ _ _ Hinit)
    as (sess & inputs & outputs & meta & t0 & Ht & Hself).
  pose proof (later_self _ _ Hlater) as Hsame.
  exists sess, inputs, outputs, meta, t0.
  repeat split; try assumption;
    unfold get_inputs, get_outputs, get_modelmeta, getattr;
    rewrite Hsame, Hself; reflexivity.
Qed.

End Snapshots.

(** ** Failures of the engine *)

Section Failures.
Context `{C.Engine}.

Lemma final_silent {A : Type} (x : Outcome A * World * list Entry) :
  trace x = [] -> failure_is_final x.
Proof.
  intros Hx pre B c e post Ht. rewrite Hx in Ht.
  destruct pre; discriminate.
Qed.

Lemma final_call {A : Type} (c : C.Call C.Sess A) w :
  failure_is_final (call c w).
Proof.
  intros pre B c' e post. rewrite call_unfold. cbn.
  destruct pre as [|x [|y pre]]; [|discriminate..].
  cbn. intros Heq. split.
  - apply (f_equal (@tail Entry)) in Heq. symmetry. exact Heq.
  - apply (f_equal (fun l => raised <$> head l)) in Heq. cbn in Heq.
    destruct (answer c (native w)); congruence.
Qed.

Lemma final_bind {A B : Type} (m : M A) (k : A -> M B) w :
  failure_is_final (m w) ->
  (forall a w1 t1, m w = (Returns a, w1, t1) -> failure_is_final (k a w1)) ->
  failure_is_final (bind m k w).
Proof.
  intros Hm Hk.
  destruct (m w) as [[[a|e0] w1] t1] eqn:Hmw.
  - rewrite (bind_returns _ _ _ _ _ _ Hmw).
    intros pre B0 c e post Ht. cbn in Ht.
    apply List.app_eq_app in Ht as [l [[Ht1 Hl]|[Hpre Ht2]]].
    + destruct l as [|x l].
      * cbn in Hl. symmetry in Hl. rewrite app_nil_r in Ht1. subst pre.
        apply (Hk a w1 t1 eq_refl [] B0 c e post) in Hl. exact Hl.
      * cbn in Hl. injection Hl as <- Hpost.
        destruct (Hm pre B0 c e l Ht1) as [_ Habs]. discriminate Habs.
    + apply (Hk a w1 t1 eq_refl l B0 c e post) in Ht2. exact Ht2.
  - rewrite (bind_raises _ _ _ _ _ _ Hmw).
    intros pre B0 c e post Ht.
    destruct (Hm pre B0 c e post Ht) as [-> [= ->]]. split; reflexivity.
Qed.

Lemma final_getattr {A : Type} (proj : Attrs -> option A) attr w :
  failure_is_final (getattr proj attr w).
Proof.
  apply final_silent. unfold getattr. now destruct (proj (self w)).
Qed.

Lemma final_len v w : failure_is_final (len v w).
Proof. apply final_silent. now destruct v. Qed.

Lemma final_native_session sess_options w :
  failure_is_final (native_session sess_options w).
Proof.
  unfold native_session. destruct (truthy sess_options);
    repeat (apply final_bind; [|intros ? ? ? _]); apply final_call.
Qed.

Ltac final :=
  repeat first
    [ apply final_call
    | apply final_getattr
    | apply final_len
    | apply final_native_session
    | apply final_silent; reflexivity
    | apply final_bind; [|intros ? ? ? _] ].

Lemma final_init path_or_bytes sess_options w :
  failure_is_final (__init__ path_or_bytes sess_options w).
Proof.
  unfold __init__.
  destruct path_or_bytes as [| | | | |[|token rest]| | |]; final.
Qed.

Lemma final_run output_names input_feed run_options w :
  failure_is_final (run output_names input_feed run_options w).
Proof.
  unfold run. final.
  destruct (negb _); [final|].
  destruct (negb _); final.
Qed.

(** C8.  In [__init__], [run] and [end_profiling], a failure of the
    engine is the last interaction with the engine (nothing is retried
    or attempted afterwards) and the operation raises the exception the
    engine raised, unchanged; an operation that raises returns no
    value. *)
Theorem engine_failures_propagate (path_or_bytes sess_options : PyVal)
    (output_names input_feed run_options : PyVal) (w : World) :
  failure_is_final (__init__ path_or_bytes sess_options w)
  /\ failure_is_final (run output_names input_feed run_options w)
  /\ failure_is_final (end_profiling w).
Proof.
  split; [apply final_init|]. split; [apply final_run|].
  unfold end_profiling. final.
Qed.

End Failures.

Lemma metadata_snapshots_witness :
  __init__ (PyStr "model.onnx") PyNone Toy.fresh
  = (Returns tt, Toy.loaded,
     Toy.creation
       ++ [Etr (C.load_model 0 (PyStr "model.onnx")) (Returns tt);
           Etr (C.inputs_meta 0) (Returns [Toy.x_arg]);
           Etr (C.outputs_meta 0) (Returns [Toy.y_arg; Toy.z_arg]);
           Etr (C.model_meta 0) (Returns Toy.meta)])
  /\ rtc later Toy.loaded
       (after EndProfiling
          (after (Run PyNone (PyDict {["x" := Toy.tensor]}) PyNone)
             Toy.loaded))
  /\ exists sess inputs outputs meta t0,
       Toy.creation
         ++ [Etr (C.load_model 0 (PyStr "model.onnx")) (Returns tt);
             Etr (C.inputs_meta 0) (Returns [Toy.x_arg]);
             Etr (C.outputs_meta 0) (Returns [Toy.y_arg; Toy.z_arg]);
             Etr (C.model_meta 0) (Returns Toy.meta)]
       = t0 ++ [Etr (C.inputs_meta sess) (Returns inputs);
                Etr (C.outputs_meta sess) (Returns outputs);
                Etr (C.model_meta sess) (Returns meta)]
       /\ self Toy.loaded
          = mkAttrs (Some sess) (Some inputs) (Some outputs) (Some meta)
       /\ self (after EndProfiling
                  (after (Run PyNone (PyDict {["x" := Toy.tensor]}) PyNone)
                     Toy.loaded))
          = self Toy.loaded
       /\ get_inputs
            (after EndProfiling
               (after (Run PyNone (PyDict {["x" := Toy.tensor]}) PyNone)
                  Toy.loaded))
          = (Returns inputs,
             after EndProfiling
               (after (Run PyNone (PyDict {["x" := Toy.tensor]}) PyNone)
                  Toy.loaded), [])
       /\ get_outputs
            (after EndProfiling
               (after (Run PyNone (PyDict {["x" := Toy.tensor]}) PyNone)
                  Toy.loaded))
          = (Returns outputs,
             after EndProfiling
               (after (Run PyNone (PyDict {["x" := Toy.tensor]}) PyNone)
                  Toy.loaded), [])
       /\ get_modelmeta
            (after EndProfiling
               (after (Run PyNone (PyDict {["x" := Toy.tensor]}) PyNone)
                  Toy.loaded))
          = (Returns meta,
             after EndProfiling
               (after (Run PyNone (PyDict {["x" := Toy.tensor]}) PyNone)
                  Toy.loaded), []).
Proof.
  assert (rtc later Toy.loaded
            (after EndProfiling
               (after (Run PyNone (PyDict {["x" := Toy.tensor]}) PyNone)
                  Toy.loaded))) as Hlater.
  { eapply rtc_l; [eexists; reflexivity|].
    eapply rtc_l; [eexists; reflexivity|]. apply rtc_refl. }
  split; [reflexivity|]. split; [exact Hlater|].
  exact (metadata_snapshots (PyStr "model.onnx") PyNone Toy.fresh Toy.loaded
           _ _ eq_refl Hlater).
Defined.

Lemma engine_failures_propagate_witness :
  (trace (__init__ (PyStr "missing.onnx") PyNone Toy.fresh)
   = Toy.creation
       ++ Etr (C.load_model 0 (PyStr "missing.onnx"))
            (Raises (OtherError "RuntimeError" "Load model failed")) :: []
   /\ outcome (__init__ (PyStr "missing.onnx") PyNone Toy.fresh)
      = Raises (OtherError "RuntimeError" "Load model failed"))
  /\ (trace (run PyNone (PyDict {["not_an_input" := Toy.tensor]}) PyNone
               Toy.loaded)
      = [] ++ Etr (C.run 0 (PyList [PyStr "y"; PyStr "z"])
                     (PyDict {["not_an_input" := Toy.tensor]}) PyNone)
                (Raises (OtherError "RuntimeError" "Invalid Feed Input Name"))
              :: []
      /\ outcome (run PyNone (PyDict {["not_an_input" := Toy.tensor]}) PyNone
                    Toy.loaded)
         = Raises (OtherError "RuntimeError" "Invalid Feed Input Name"))
  /\ (trace (end_profiling Toy.loaded)
      = [] ++ Etr (C.end_profiling 0)
                (Raises (OtherError "RuntimeError" "Profiling is not enabled"))
              :: []
      /\ outcome (end_profiling Toy.loaded)
         = Raises (OtherError "RuntimeError" "Profiling is not enabled")).
Proof.
  pose proof (engine_failures_propagate (PyStr "missing.onnx") PyNone PyNone
                PyNone PyNone Toy.fresh) as [Hinit _].
  pose proof (engine_failures_propagate PyNone PyNone PyNone
                (PyDict {["not_an_input" := Toy.tensor]}) PyNone Toy.loaded)
    as [_ [Hrun Hprof]].
  split; [|split].
  - assert (trace (__init__ (PyStr "missing.onnx") PyNone Toy.fresh)
            = Toy.creation
                ++ Etr (C.load_model 0 (PyStr "missing.onnx"))
                     (Raises (OtherError "RuntimeError" "Load model failed"))
                   :: []) as Ht by reflexivity.
    split; [exact Ht|]. exact (proj2 (Hinit _ _ _ _ _ Ht)).
  - assert (trace (run PyNone (PyDict {["not_an_input" := Toy.tensor]})
                     PyNone Toy.loaded)
            = [] ++ Etr (C.run 0 (PyList [PyStr "y"; PyStr "z"])
                           (PyDict {["not_an_input" := Toy.tensor]}) PyNone)
                      (Raises (OtherError "RuntimeError"
                                 "Invalid Feed Input Name")) :: [])
      as Ht by (vm_compute; reflexivity).
    split; [exact Ht|]. exact (proj2 (Hrun _ _ _ _ _ Ht)).
  - assert (trace (end_profiling Toy.loaded)
            = [] ++ Etr (C.end_profiling 0)
                      (Raises (OtherError "RuntimeError"
                                 "Profiling is not enabled")) :: [])
      as Ht by reflexivity.
    split; [exact Ht|]. exact (proj2 (Hprof _ _ _ _ _ Ht)).
Defined.


(** ** Further properties of [run] *)

Section RunEdges.
Context `{C.Engine}.

(** X1.  Whatever the state of the object and whatever the arguments,
    [run] either raises without calling the engine and without changing
    anything, or it is exactly one call of the engine's [run] on the
    stored native session, with the caller's feed and run options. *)
Theorem run_fails_locally_or_calls_once (output_names input_feed
    run_options : PyVal) (w : World) :
  (exists e, run output_names input_feed run_options w = (Raises e, w, []))
  \/ (exists sess names,
         _sess (self w) = Some sess
         /\ run output_names input_feed run_options w
            = call (C.run sess names input_feed run_options) w).
Proof.
  unfold run.
  destruct (_inputs_meta (self w)) as [inputs|] eqn:Hin;
    [|left; eexists; unfold bind, getattr; rewrite Hin; reflexivity].
  rewrite (bind_getattr _ _ _ w inputs) by exact Hin.
  destruct (len input_feed w) as [[[k|e] w1] t1] eqn:Hlen;
    pose proof Hlen as [-> ->]%len_inv;
    [|left; eexists; rewrite (bind_raises _ _ _ _ _ _ Hlen); reflexivity].
  rewrite (bind_returns _ _ _ _ _ _ Hlen).
  destruct (negb (k =? length inputs)); [left; eexists; reflexivity|].
  destruct (_sess (self w)) as [sess|] eqn:Hsess.
  - destruct (negb (truthy output_names)).
    + destruct (_outputs_meta (self w)) as [outputs|] eqn:Hout.
      * right. exists sess, (declared_names outputs). split; [reflexivity|].
        rewrite (bind_returns _ _ w (declared_names outputs) w [])
          by (rewrite (bind_getattr _ _ _ w outputs) by exact Hout;
              reflexivity).
        rewrite (bind_getattr _ _ _ w sess) by exact Hsess.
        unfold outcome, world_after, trace.
        now destruct (call _ w) as [[r w2] t2].
      * left. eexists. unfold bind, getattr, outcome, world_after, trace.
        rewrite Hout. reflexivity.
    + right. exists sess, output_names. split; [reflexivity|].
      rewrite bind_ret, (bind_getattr _ _ _ w sess) by exact Hsess.
      unfold outcome, world_after, trace.
      now destruct (call _ w) as [[r w2] t2].
  - left. destruct (negb (truthy output_names)).
    + destruct (_outputs_meta (self w)) as [outputs|] eqn:Hout;
        eexists; unfold bind, getattr, ret, outcome, world_after, trace;
        rewrite Hout, ?Hsess; reflexivity.
    + eexists. unfold bind, getattr, ret, outcome, world_after, trace.
      rewrite Hsess. reflexivity.
Qed.

End RunEdges.

Section RunFeeds.
Context `{C.Engine}.

(** X2.  In a session whose input descriptors are cached, a feed that has
    no length ([None], a boolean, an integer) makes [run] raise the
    [TypeError] of [len], naming the type of the feed; the engine is not
    called and nothing changes. *)
Theorem run_feed_without_length (w : World) (inputs : list NodeArg)
    (output_names input_feed run_options : PyVal) :
  _inputs_meta (self w) = Some inputs ->
  input_feed = PyNone
  \/ (exists b, input_feed = PyBool b)
  \/ (exists z, input_feed = PyInt z) ->
  run output_names input_feed run_options w
  = (Raises (TypeError
               ("object of type '" +:+ type_name input_feed
                  +:+ "' has no len()")), w, []).
Proof.
  intros Hin Hfeed. unfold run.
  rewrite (bind_getattr _ _ _ w inputs) by exact Hin.
  destruct Hfeed as [->|[[b ->]|[z ->]]]; reflexivity.
Qed.


End RunFeeds.

Lemma run_feed_without_length_witness :
  _inputs_meta (self Toy.loaded) = Some [Toy.x_arg]
  /\ (PyNone = PyNone
      \/ (exists b, PyNone = PyBool b)
      \/ (exists z, PyNone = PyInt z))
  /\ run PyNone PyNone PyNone Toy.loaded
     = (Raises (TypeError "object of type 'NoneType' has no len()"),
        Toy.loaded, []).
Proof.
  split; [reflexivity|]. split; [left; reflexivity|].
  exact (run_feed_without_length Toy.loaded [Toy.x_arg] PyNone PyNone PyNone
           eq_refl (or_introl eq_refl)).
Defined.


(** ** Further properties of [__init__] *)

Section ConstructEdges.
Context `{C.Engine}.

Lemma native_session_created sess_options w sess w1 t1 :
  native_session sess_options w = (Returns sess, w1, t1) ->
  self w1 = self w
  /\ length t1 = (if truthy sess_options then 2 else 3)
  /\ exists arg1 arg2,
       constructions t1 = [Etr (C.InferenceSession arg1 arg2) (Returns sess)].
Proof.
  unfold native_session, constructions.
  destruct (truthy sess_options);
    unfold bind, call; cbn;
    repeat match goal with
      | |- context [C.exec ?c ?s] => destruct (C.exec c s) as [[?|?] ?]; cbn
      end;
    intros [= <- <- <-]; (split; [reflexivity|]); (split; [reflexivity|]);
    eexists _, _; reflexivity.
Qed.

Lemma load_not_constructor (x : Entry) :
  is_load x = true -> is_constructor x = false.
Proof. destruct x as [A c r]. destruct c; cbn; congruence. Qed.

(** What a construct that returns has done, in full. *)
Lemma init_returns_full path_or_bytes sess_options w w' t :
  __init__ path_or_bytes sess_options w = (Returns tt, w', t) ->
  exists sess w1 t1 load inputs outputs meta,
    native_session sess_options w = (Returns sess, w1, t1)
    /\ is_load load = true
    /\ t = t1 ++ [load;
                  Etr (C.inputs_meta sess) (Returns inputs);
                  Etr (C.outputs_meta sess) (Returns outputs);
                  Etr (C.model_meta sess) (Returns meta)]
    /\ self w' = mkAttrs (Some sess) (Some inputs) (Some outputs) (Some meta).
Proof.
  unfold __init__. intros Hinit.
  destruct (native_session sess_options w) as [[[sess|e] w1] t1] eqn:Hns;
    [ rewrite (bind_returns _ _ _ _ _ _ Hns) in Hinit
    | rewrite (bind_raises _ _ _ _ _ _ Hns) in Hinit; discriminate ].
  exists sess, w1, t1.
  destruct path_or_bytes as [| | | | |[|token rest]| | |];
    unfold bind, call, getattr, setattr, ret, raise, tuple_getitem,
      outcome, world_after, trace in Hinit;
    cbn in Hinit; try discriminate;
    repeat match type of Hinit with
      | context [C.exec ?c ?s] =>
          destruct (C.exec c s) as [[?|?] ?]; cbn in Hinit
      end;
    try discriminate;
    injection Hinit as <- <-;
    eexists _, _, _, _; repeat split; reflexivity.
Qed.


(** X5.  The session a construct leaves is the one the later calls use.
    After [__init__] has returned and after any number of later method
    calls, [run] still checks a feed against the number of input
    descriptors the engine reported during the construct, takes its
    default names from the output descriptors reported then, and both
    [run] and [end_profiling] call the native session object that the one
    constructor call of [__init__] returned. *)
Theorem session_lifetime (path_or_bytes sess_options : PyVal)
    (w w' : World) (t : list Entry) (w2 : World) :
  __init__ path_or_bytes sess_options w = (Returns tt, w', t) ->
  rtc later w' w2 ->
  exists sess arg1 arg2 inputs outputs,
    constructions t = [Etr (C.InferenceSession arg1 arg2) (Returns sess)]
    /\ Etr (C.inputs_meta sess) (Returns inputs) ∈ t
    /\ Etr (C.outputs_meta sess) (Returns outputs) ∈ t
    /\ (forall output_names (feed : gmap string PyVal) run_options,
          size feed = length inputs ->
          run output_names (PyDict feed) run_options w2
          = call (C.run sess (requested_names output_names outputs)
                    (PyDict feed) run_options) w2)
    /\ (forall output_names (feed : gmap string PyVal) run_options,
          size feed ≠ length inputs ->
          run output_names (PyDict feed) run_options w2
          = (Raises (ValueError
                       ("Model requires " +:+ str_of_nat (length inputs)
                          +:+ " inputs. Input Feed contains "
                          +:+ str_of_nat (size feed))), w2, []))
    /\ end_profiling w2 = call (C.end_profiling sess) w2.
Proof.
  intros Hinit Hlater.
  destruct (init_returns_full _ _ _ _ _ Hinit)
    as (sess & w1 & t1 & load & inputs & outputs & meta
        & Hns & Hload & -> & Hself).
  destruct (native_session_created _ _ _ _ _ Hns)
    as (_ & _ & arg1 & arg2 & Hctor).
  pose proof (later_self _ _ Hlater) as Hsame. rewrite Hself in Hsame.
  exists sess, arg1, arg2, inputs, outputs.
  split; [|split; [|split; [|split; [|split]]]].
  - rewrite constructions_app, Hctor. unfold constructions. cbn.
    rewrite (load_not_constructor _ Hload). reflexivity.
  - rewrite elem_of_app. right. set_solver.
  - rewrite elem_of_app. right. set_solver.
  - intros output_names feed run_options Hsize.
    apply (run_len_match w2 sess inputs outputs (Some meta));
      [exact Hsame|]. cbn. rewrite Hsize. reflexivity.
  - intros output_names feed run_options Hsize.
    apply run_len_mismatch; [rewrite Hsame; reflexivity|reflexivity|exact Hsize].
  - unfold end_profiling.
    rewrite (bind_getattr _ _ _ w2 sess) by (rewrite Hsame; reflexivity).
    reflexivity.
Qed.

End ConstructEdges.

Section ConstructFailures.
Context `{C.Engine}.

(** X6.  A source of an unsupported type is looked at only after the
    native session has been created: when [__init__] raises its
    [TypeError], the engine has already built a session object (its state
    is the one the creation left) and the object has stored it in
    [_sess]. *)
Theorem construct_rejects_after_creation (path_or_bytes sess_options : PyVal)
    (w : World) (sess : C.Sess) (w1 : World) (t1 : list Entry) :
  (forall path, path_or_bytes ≠ PyStr path) ->
  (forall data, path_or_bytes ≠ PyBytes data) ->
  (forall items, path_or_bytes ≠ PyTuple items) ->
  native_session sess_options w = (Returns sess, w1, t1) ->
  (exists arg1 arg2,
      constructions (trace (__init__ path_or_bytes sess_options w))
      = [Etr (C.InferenceSession arg1 arg2) (Returns sess)])
  /\ _sess (self (world_after (__init__ path_or_bytes sess_options w)))
     = Some sess
  /\ native (world_after (__init__ path_or_bytes sess_options w))
     = native w1.
Proof.
  intros Hstr Hbytes Htuple Hns.
  destruct (native_session_created _ _ _ _ _ Hns)
    as (_ & _ & arg1 & arg2 & Hctor).
  unfold __init__. rewrite (bind_returns _ _ _ _ _ _ Hns).
  destruct path_or_bytes;
    try solve [ exfalso; eapply Hstr; reflexivity
              | exfalso; eapply Hbytes; reflexivity
              | exfalso; eapply Htuple; reflexivity ];
    (split; [exists arg1, arg2; cbn; rewrite app_nil_r; exact Hctor|]);
    split; reflexivity.
Qed.

(** X7.  On an object without attributes, [__init__] assigns them in a
    fixed order and completes them only by returning: afterwards
    [_model_meta] is set exactly when [__init__] returned, and each of
    [_model_meta], [_outputs_meta], [_inputs_meta] is set only if the
    attribute assigned before it is set, down to [_sess]. *)
Theorem construct_assigns_in_order (path_or_bytes sess_options : PyVal)
    (w : World) :
  self w = mkAttrs None None None None ->
  (is_Some (_model_meta (self (world_after
                                  (__init__ path_or_bytes sess_options w))))
   <-> outcome (__init__ path_or_bytes sess_options w) = Returns tt)
  /\ (is_Some (_model_meta (self (world_after
                                   (__init__ path_or_bytes sess_options w))))
      -> is_Some (_outputs_meta (self (world_after
                                   (__init__ path_or_bytes sess_options w)))))
  /\ (is_Some (_outputs_meta (self (world_after
                                   (__init__ path_or_bytes sess_options w))))
      -> is_Some (_inputs_meta (self (world_after
                                   (__init__ path_or_bytes sess_options w)))))
  /\ (is_Some (_inputs_meta (self (world_after
                                   (__init__ path_or_bytes sess_options w))))
      -> is_Some (_sess (self (world_after
                                   (__init__ path_or_bytes sess_options w))))).
Proof.
  intros Hfresh. unfold __init__.
  pose proof (native_session_self sess_options w) as Hself.
  destruct (native_session sess_options w) as [[[sess|e] [s1 a1]] t1] eqn:Hns;
    unfold world_after in Hself; cbn in Hself; rewrite Hfresh in Hself;
    subst a1.
  - rewrite (bind_returns _ _ _ _ _ _ Hns).
    destruct path_or_bytes as [| | | | |[|token rest]| | |];
      engine_answers;
      repeat split; intros Hx;
      first [ reflexivity | discriminate
            | exact (ex_intro _ _ eq_refl)
            | by apply is_Some_None in Hx ].
  - rewrite (bind_raises _ _ _ _ _ _ Hns). cbn.
    repeat split; intros Hx;
      first [ discriminate | by apply is_Some_None in Hx ].
Qed.

(** X8.  Options that are falsy (an empty dictionary, zero, an empty
    string) are not passed to the engine: the construct is the one made
    with no options. *)
Theorem construct_ignores_falsy_options (path_or_bytes sess_options : PyVal)
    (w : World) :
  truthy sess_options = false ->
  __init__ path_or_bytes sess_options w = __init__ path_or_bytes PyNone w.
Proof.
  intros Hfalse. unfold __init__.
  rewrite (native_session_falsy_options _ Hfalse). reflexivity.
Qed.

End ConstructFailures.

(** ** Methods on any object *)

Section Methods.
Context `{C.Engine}.

(** X9.  On an object whose [__init__] has not assigned anything, every
    method raises [AttributeError] for the first attribute it reads,
    before it looks at its arguments; the engine is not called and
    nothing changes. *)
Theorem methods_before_construct (w : World)
    (output_names input_feed run_options : PyVal) :
  self w = mkAttrs None None None None ->
  get_inputs w
  = (Raises (AttributeError
               "'InferenceSession' object has no attribute '_inputs_meta'"),
     w, [])
  /\ get_outputs w
     = (Raises (AttributeError
                  "'InferenceSession' object has no attribute '_outputs_meta'"),
        w, [])
  /\ get_modelmeta w
     = (Raises (AttributeError
                  "'InferenceSession' object has no attribute '_model_meta'"),
        w, [])
  /\ run output_names input_feed run_options w
     = (Raises (AttributeError
                  "'InferenceSession' object has no attribute '_inputs_meta'"),
        w, [])
  /\ end_profiling w
     = (Raises (AttributeError
                  "'InferenceSession' object has no attribute '_sess'"),
        w, []).
Proof.
  intros Hfresh.
  unfold get_inputs, get_outputs, get_modelmeta, run, end_profiling,
    bind, getattr.
  rewrite Hfresh. repeat split; reflexivity.
Qed.

(** X10.  No method other than [__init__] assigns an attribute, whatever
    the state of the object and whether the method returns or raises;
    the three accessors change nothing at all and never call the
    engine. *)
Theorem methods_keep_attributes (w : World)
    (output_names input_feed run_options : PyVal) :
  self (world_after (run output_names input_feed run_options w)) = self w
  /\ self (world_after (end_profiling w)) = self w
  /\ (world_after (get_inputs w) = w /\ trace (get_inputs w) = [])
  /\ (world_after (get_outputs w) = w /\ trace (get_outputs w) = [])
  /\ (world_after (get_modelmeta w) = w /\ trace (get_modelmeta w) = []).
Proof.
  split; [exact (after_self (Run output_names input_feed run_options) w)|].
  split; [exact (after_self EndProfiling w)|].
  unfold get_inputs, get_outputs, get_modelmeta, getattr, world_after, trace.
  repeat split; now repeat case_match.
Qed.

End Methods.


Lemma session_lifetime_witness :
  __init__ (PyStr "model.onnx") PyNone Toy.fresh
  = (Returns tt, Toy.loaded,
     Toy.creation
       ++ [Etr (C.load_model 0 (PyStr "model.onnx")) (Returns tt);
           Etr (C.inputs_meta 0) (Returns [Toy.x_arg]);
           Etr (C.outputs_meta 0) (Returns [Toy.y_arg; Toy.z_arg]);
           Etr (C.model_meta 0) (Returns Toy.meta)])
  /\ rtc later Toy.loaded
       (after (Run PyNone (PyDict {["x" := Toy.tensor]}) PyNone) Toy.loaded)
  /\ exists sess arg1 arg2 inputs outputs,
       constructions
         (Toy.creation
            ++ [Etr (C.load_model 0 (PyStr "model.onnx")) (Returns tt);
                Etr (C.inputs_meta 0) (Returns [Toy.x_arg]);
                Etr (C.outputs_meta 0) (Returns [Toy.y_arg; Toy.z_arg]);
                Etr (C.model_meta 0) (Returns Toy.meta)])
       = [Etr (C.InferenceSession arg1 arg2) (Returns sess)]
       /\ Etr (C.inputs_meta sess) (Returns inputs)
          ∈ Toy.creation
              ++ [Etr (C.load_model 0 (PyStr "model.onnx")) (Returns tt);
                  Etr (C.inputs_meta 0) (Returns [Toy.x_arg]);
                  Etr (C.outputs_meta 0) (Returns [Toy.y_arg; Toy.z_arg]);
                  Etr (C.model_meta 0) (Returns Toy.meta)]
       /\ Etr (C.outputs_meta sess) (Returns outputs)
          ∈ Toy.creation
              ++ [Etr (C.load_model 0 (PyStr "model.onnx")) (Returns tt);
                  Etr (C.inputs_meta 0) (Returns [Toy.x_arg]);
                  Etr (C.outputs_meta 0) (Returns [Toy.y_arg; Toy.z_arg]);
                  Etr (C.model_meta 0) (Returns Toy.meta)]
       /\ (forall output_names (feed : gmap string PyVal) run_options,
             size feed = length inputs ->
             run output_names (PyDict feed) run_options
               (after (Run PyNone (PyDict {["x" := Toy.tensor]}) PyNone)
                  Toy.loaded)
             = call (C.run sess (requested_names output_names outputs)
                       (PyDict feed) run_options)
                 (after (Run PyNone (PyDict {["x" := Toy.tensor]}) PyNone)
                    Toy.loaded))
       /\ (forall output_names (feed : gmap string PyVal) run_options,
             size feed ≠ length inputs ->
             run output_names (PyDict feed) run_options
               (after (Run PyNone (PyDict {["x" := Toy.tensor]}) PyNone)
                  Toy.loaded)
             = (Raises (ValueError
                          ("Model requires " +:+ str_of_nat (length inputs)
                             +:+ " inputs. Input Feed contains "
                             +:+ str_of_nat (size feed))),
                after (Run PyNone (PyDict {["x" := Toy.tensor]}) PyNone)
                  Toy.loaded, []))
       /\ end_profiling
            (after (Run PyNone (PyDict {["x" := Toy.tensor]}) PyNone)
               Toy.loaded)
          = call (C.end_profiling sess)
              (after (Run PyNone (PyDict {["x" := Toy.tensor]}) PyNone)
                 Toy.loaded).
Proof.
  assert (rtc later Toy.loaded
            (after (Run PyNone (PyDict {["x" := Toy.tensor]}) PyNone)
               Toy.loaded)) as Hlater
    by (eapply rtc_l; [eexists; reflexivity | apply rtc_refl]).
  split; [reflexivity|]. split; [exact Hlater|].
  exact (session_lifetime (PyStr "model.onnx") PyNone Toy.fresh Toy.loaded
           _ _ eq_refl Hlater).
Defined.

Lemma construct_rejects_after_creation_witness :
  (forall path, PyInt 3 ≠ PyStr path)
  /\ (forall data, PyInt 3 ≠ PyBytes data)
  /\ (forall items, PyInt 3 ≠ PyTuple items)
  /\ native_session PyNone Toy.fresh = (Returns 0, Toy.created, Toy.creation)
  /\ (exists arg1 arg2,
         constructions (trace (__init__ (PyInt 3) PyNone Toy.fresh))
         = [Etr (C.InferenceSession arg1 arg2) (Returns 0)])
  /\ _sess (self (world_after (__init__ (PyInt 3) PyNone Toy.fresh))) = Some 0
  /\ native (world_after (__init__ (PyInt 3) PyNone Toy.fresh))
     = native Toy.created.
Proof.
  assert (forall path, PyInt 3 ≠ PyStr path) as Hstr by discriminate.
  assert (forall data, PyInt 3 ≠ PyBytes data) as Hbytes by discriminate.
  assert (forall items, PyInt 3 ≠ PyTuple items) as Htuple by discriminate.
  split; [exact Hstr|]. split; [exact Hbytes|]. split; [exact Htuple|].
  split; [reflexivity|].
  exact (construct_rejects_after_creation (PyInt 3) PyNone Toy.fresh 0
           Toy.created Toy.creation Hstr Hbytes Htuple eq_refl).
Defined.

Lemma construct_assigns_in_order_witness :
  self Toy.fresh = mkAttrs None None None None
  /\ (is_Some (_model_meta (self (world_after
         (__init__ (PyStr "missing.onnx") PyNone Toy.fresh))))
      <-> outcome (__init__ (PyStr "missing.onnx") PyNone Toy.fresh)
          = Returns tt)
  /\ (is_Some (_model_meta (self (world_after
         (__init__ (PyStr "missing.onnx") PyNone Toy.fresh))))
      -> is_Some (_outputs_meta (self (world_after
         (__init__ (PyStr "missing.onnx") PyNone Toy.fresh)))))
  /\ (is_Some (_outputs_meta (self (world_after
         (__init__ (PyStr "missing.onnx") PyNone Toy.fresh))))
      -> is_Some (_inputs_meta (self (world_after
         (__init__ (PyStr "missing.onnx") PyNone Toy.fresh)))))
  /\ (is_Some (_inputs_meta (self (world_after
         (__init__ (PyStr "missing.onnx") PyNone Toy.fresh))))
      -> is_Some (_sess (self (world_after
         (__init__ (PyStr "missing.onnx") PyNone Toy.fresh))))).
Proof.
  split; [reflexivity|].
  exact (construct_assigns_in_order (PyStr "missing.onnx") PyNone Toy.fresh
           eq_refl).
Defined.

Lemma construct_ignores_falsy_options_witness :
  truthy (PyDict ∅) = false
  /\ __init__ (PyStr "model.onnx") (PyDict ∅) Toy.fresh
     = __init__ (PyStr "model.onnx") PyNone Toy.fresh.
Proof.
  split; [reflexivity|].
  exact (construct_ignores_falsy_options (PyStr "model.onnx") (PyDict ∅)
           Toy.fresh eq_refl).
Defined.

Lemma methods_before_construct_witness :
  self Toy.fresh = mkAttrs None None None None
  /\ get_inputs Toy.fresh
     = (Raises (AttributeError
                  "'InferenceSession' object has no attribute '_inputs_meta'"),
        Toy.fresh, [])
  /\ get_outputs Toy.fresh
     = (Raises (AttributeError
                  "'InferenceSession' object has no attribute '_outputs_meta'"),
        Toy.fresh, [])
  /\ get_modelmeta Toy.fresh
     = (Raises (AttributeError
                  "'InferenceSession' object has no attribute '_model_meta'"),
        Toy.fresh, [])
  /\ run PyNone (PyDict {["x" := Toy.tensor]}) PyNone Toy.fresh
     = (Raises (AttributeError
                  "'InferenceSession' object has no attribute '_inputs_meta'"),
        Toy.fresh, [])
  /\ end_profiling Toy.fresh
     = (Raises (AttributeError
                  "'InferenceSession' object has no attribute '_sess'"),
        Toy.fresh, []).
Proof.
  split; [reflexivity|].
  exact (methods_before_construct Toy.fresh PyNone
           (PyDict {["x" := Toy.tensor]}) PyNone eq_refl).
Defined.
